(** * Mandala Art Generator: the prompt builder and its caller

    A shallow embedding of [app.py]: the function [create_mandala_prompt]
    (a pure string template over two dictionary lookups) and the part of
    [main] that decides whether a generation request is sent and with which
    prompt and image size, which hints are shown, and how the caption and
    the name of the download are formed.

    Python strings are [string]; the two dictionary literals are
    [gmap string string]; a failed subscript [d[k]] raises [KeyError k],
    which is modelled by the left injection of a sum type. *)

From Stdlib Require Import Ascii String Bool ZArith Lia.
From stdpp Require Import base option list strings gmap fin_maps.

Local Open Scope string_scope.
Local Open Scope stdpp_scope.

(** ** Python strings *)

Module PyStr.

(** The line feed of a triple-quoted literal. *)
Definition nl : string := String (ascii_of_nat 10) "".

(** Truth value of a string: [bool(s)] is [False] exactly for the empty
    string. *)
Definition truthy (s : string) : bool :=
  match s with
  | "" => false
  | String _ _ => true
  end.

(** [a and b] on strings yields [a] when [a] is falsy and [b] otherwise. *)
Definition and_ (a b : string) : string :=
  if truthy a then b else a.

(** [sub in s]: some suffix of [s] starts with [sub]. *)
Fixpoint contains (sub s : string) : bool :=
  String.prefix sub s ||
  match s with
  | "" => false
  | String _ s' => contains sub s'
  end.

(** The character [c] occurs in [s]. *)
Fixpoint has_char (c : ascii) (s : string) : bool :=
  match s with
  | "" => false
  | String a s' => Ascii.eqb c a || has_char c s'
  end.

(** [sub] occurs in [s] as a contiguous block. *)
Definition occurs_in (sub s : string) : Prop :=
  ∃ pre post, s = pre +:+ sub +:+ post.

End PyStr.

Import PyStr.

(** ** Exceptions *)

(** The only exception the modelled code raises itself: a dictionary
    subscript with an absent key. *)
Inductive exception : Type :=
  | KeyError (key : string).

Definition result (A : Type) : Type := exception + A.

Global Instance result_ret : MRet result := λ A a, inr a.

Global Instance result_bind : MBind result := λ A B k m,
  match m with
  | inl e => inl e
  | inr a => k a
  end.

Definition raise {A} (e : exception) : result A := inl e.

(** [d[k]] on a [dict] with string keys and values. *)
Definition getitem (d : gmap string string) (k : string) : result string :=
  match d !! k with
  | Some v => mret v
  | None => raise (KeyError k)
  end.

(** ** [create_mandala_prompt] *)

(** The f-string of lines 259-260: the subject between two single quotes,
    a blank after the full stop, the line break and the indentation of the
    continuation line. *)
Definition base_prefix : string :=
  "Create a beautiful, symmetrical Mandala artwork inspired by the word '".

Definition base_suffix : string :=
  "'. " +:+ nl +:+
  "    The design should be in black and white line art style, perfect for coloring books.".

Definition base_prompt (word : string) : string :=
  base_prefix +:+ word +:+ base_suffix.

Definition complexity_prompts : gmap string string :=
  <["Simple" := "Use clean, simple geometric patterns with wide spaces for easy coloring. Minimal detail, bold lines."]>
  (<["Moderate" := "Include moderate detail with traditional mandala elements like circles, petals, and geometric shapes."]>
  (<["Detailed" := "Create intricate patterns with fine details, multiple layers, and complex geometric arrangements."]>
  (<["Very Detailed" := "Design an extremely detailed mandala with very fine lines, multiple concentric circles, and elaborate patterns."]>
   ∅))).

Definition style_prompts : gmap string string :=
  <["Traditional Mandala" := "Follow traditional Sanskrit mandala design principles with circular symmetry, lotus petals, and sacred geometry."]>
  (<["Geometric Patterns" := "Focus on geometric shapes, mathematical patterns, triangles, hexagons, and angular designs."]>
  (<["Nature-Inspired" := "Incorporate natural elements like flowers, leaves, vines, and organic flowing patterns."]>
  (<["Abstract Designs" := "Create abstract, flowing patterns with curved lines and artistic interpretations."]>
   ∅))).

Definition technical_specs : string :=
  nl +:+
  "    IMPORTANT: The artwork must be:" +:+ nl +:+
  "    - Pure black lines on white background" +:+ nl +:+
  "    - High contrast for clear printing" +:+ nl +:+
  "    - Perfectly symmetrical (8-fold or 12-fold radial symmetry)" +:+ nl +:+
  "    - No shading, gradients, or gray tones" +:+ nl +:+
  "    - Clean, printable line art style" +:+ nl +:+
  "    - Suitable for coloring with pens, pencils, or markers" +:+ nl +:+
  "    ".

(** The f-string of line 290: four fields separated by single blanks.  The
    fields are evaluated left to right, so a bad complexity is reported
    before a bad style. *)
Definition full_prompt (base cp sp : string) : string :=
  base +:+ " " +:+ cp +:+ " " +:+ sp +:+ " " +:+ technical_specs.

Definition create_mandala_prompt (word complexity style : string) : result string :=
  cp ← getitem complexity_prompts complexity;
  sp ← getitem style_prompts style;
  mret (full_prompt (base_prompt word) cp sp).

(** ** The form and the generation branch of [main] *)

(** The options offered by the three selection widgets. *)
Definition complexity_options : list string :=
  ["Simple"; "Moderate"; "Detailed"; "Very Detailed"].

Definition style_options : list string :=
  ["Traditional Mandala"; "Geometric Patterns"; "Nature-Inspired"; "Abstract Designs"].

Definition size_options : list string :=
  ["1024x1024 (Standard)"; "1792x1024 (Wide)"; "1024x1792 (Tall)"].

(** What the widgets return in one run of the script.  [generate_button] is
    the value returned by [st.button]. *)
Record form : Type := Form {
  api_key : string;
  word : string;
  complexity : string;
  style : string;
  size : string;
  generate_button : bool
}.

(** The [disabled] argument of the button: [not (api_key and word)]. *)
Definition button_disabled (f : form) : bool :=
  negb (truthy (and_ (api_key f) (word f))).

(** Lines 150-155. *)
Definition parse_size (size : string) : string :=
  if contains "1792x1024" size then "1792x1024"
  else if contains "1024x1792" size then "1024x1792"
  else "1024x1024".

(** The keyword arguments of [client.images.generate]. *)
Record request : Type := Request {
  req_model : string;
  req_prompt : string;
  req_size : string;
  req_quality : string;
  req_n : nat
}.

(** The body of the [try] up to the call of the image API. *)
Definition build_request (f : form) : result request :=
  prompt ← create_mandala_prompt (word f) (complexity f) (style f);
  let image_size := parse_size (size f) in
  mret (Request "dall-e-3" prompt image_size "hd" 1).

(** What the right column does in one run. *)
Inductive action : Type :=
  | Generate (r : request)
  | ShowError (e : exception)
  | InfoApiKey
  | InfoWord
  | Idle.

(** Lines 140-220: [if generate_button and api_key and word: try ... except
    ...  elif not api_key: ...  elif not word: ...]. *)
Definition right_column (f : form) : action :=
  if generate_button f && truthy (api_key f) && truthy (word f) then
    match build_request f with
    | inr r => Generate r
    | inl e => ShowError e
    end
  else if negb (truthy (api_key f)) then InfoApiKey
  else if negb (truthy (word f)) then InfoWord
  else Idle.

(** The run enters the generation branch. *)
Definition attempts_generation (f : form) : Prop :=
  match right_column f with
  | Generate _ | ShowError _ => True
  | _ => False
  end.

(** Line 66: the getting-started box of the sidebar is rendered under
    [if not api_key]. *)
Definition sidebar_instructions (f : form) : bool :=
  negb (truthy (api_key f)).

(** The values the [size] argument of the image API is given. *)
Definition api_sizes : list string :=
  ["1024x1024"; "1792x1024"; "1024x1792"].

(** ** What is shown once the image has arrived *)

(** Letter case of the characters below 128, where [str.title] coincides
    with the table of ASCII.  Characters from 128 on are left alone here;
    the facts proved about [title] are stated for ASCII subjects. *)
Module PyChar.

Definition is_lower (c : ascii) : bool :=
  (97 <=? nat_of_ascii c)%nat && (nat_of_ascii c <=? 122)%nat.

Definition is_upper (c : ascii) : bool :=
  (65 <=? nat_of_ascii c)%nat && (nat_of_ascii c <=? 90)%nat.

Definition is_cased (c : ascii) : bool := is_lower c || is_upper c.

Definition to_upper (c : ascii) : ascii :=
  if is_lower c then ascii_of_nat (nat_of_ascii c - 32) else c.

Definition to_lower (c : ascii) : ascii :=
  if is_upper c then ascii_of_nat (nat_of_ascii c + 32) else c.

Definition is_ascii_char (c : ascii) : bool := (nat_of_ascii c <? 128)%nat.

(** Space up to tilde. *)
Definition is_printable (c : ascii) : bool :=
  (32 <=? nat_of_ascii c)%nat && (nat_of_ascii c <=? 126)%nat.

Definition is_line_feed (c : ascii) : bool := (nat_of_ascii c =? 10)%nat.

(** What a plain text holds: printable characters and line feeds. *)
Definition is_text (c : ascii) : bool := is_printable c || is_line_feed c.

End PyChar.

Import PyChar.

(** Every character of [s] satisfies [P]. *)
Fixpoint all_chars (P : ascii → bool) (s : string) : bool :=
  match s with
  | "" => true
  | String c s' => P c && all_chars P s'
  end.

(** [s.title()]: a cased character is upper-cased when the character before
    it is not cased, and lower-cased when it is. *)
Fixpoint title_from (previous_is_cased : bool) (s : string) : string :=
  match s with
  | "" => ""
  | String c s' =>
      String (if previous_is_cased then to_lower c else to_upper c)
             (title_from (is_cased c) s')
  end.

Definition title (s : string) : string := title_from false s.

(** Line 174. *)
Definition caption (word : string) : string :=
  "Mandala inspired by: " +:+ title word.

(** The value of [datetime.now()], to the second. *)
Record datetime : Type := Datetime {
  year : Z;
  month : Z;
  day : Z;
  hour : Z;
  minute : Z;
  second : Z
}.

(** The years for which [%Y] has four digits, and the ranges of the other
    fields. *)
Definition valid_datetime (d : datetime) : bool :=
  (1000 <=? year d)%Z && (year d <=? 9999)%Z &&
  (1 <=? month d)%Z && (month d <=? 12)%Z &&
  (1 <=? day d)%Z && (day d <=? 31)%Z &&
  (0 <=? hour d)%Z && (hour d <? 24)%Z &&
  (0 <=? minute d)%Z && (minute d <? 60)%Z &&
  (0 <=? second d)%Z && (second d <? 60)%Z.

Definition digit (n : Z) : ascii := ascii_of_N (Z.to_N (48 + n)).

(** A number below 100 in two decimal digits, as [%m], [%d], [%H], [%M] and
    [%S] print it. *)
Definition pad2 (n : Z) : string :=
  String (digit (n / 10)) (String (digit (n mod 10)) "").

(** A number below 10000 in four decimal digits, as [%Y] prints the year. *)
Definition pad4 (n : Z) : string :=
  pad2 (n / 100) +:+ pad2 (n mod 100).

(** Line 185: [strftime] with the format [%Y%m%d_%H%M%S]. *)
Definition timestamp (d : datetime) : string :=
  pad4 (year d) +:+ pad2 (month d) +:+ pad2 (day d) +:+ "_" +:+
  pad2 (hour d) +:+ pad2 (minute d) +:+ pad2 (second d).

(** Line 186. *)
Definition filename (word : string) (d : datetime) : string :=
  "mandala_" +:+ word +:+ "_" +:+ timestamp d +:+ ".png".

(** Chronological order of two instants. *)
Definition lex (c1 c2 : comparison) : comparison :=
  match c1 with
  | Eq => c2
  | _ => c1
  end.

Definition datetime_compare (d1 d2 : datetime) : comparison :=
  lex (year d1 ?= year d2)%Z
 (lex (month d1 ?= month d2)%Z
 (lex (day d1 ?= day d2)%Z
 (lex (hour d1 ?= hour d2)%Z
 (lex (minute d1 ?= minute d2)%Z
      (second d1 ?= second d2)%Z)))).

(** * Facts about strings *)

Module PyStrFacts.

Lemma app_cons a s t : String a s +:+ t = String a (s +:+ t).
Proof. reflexivity. Qed.

Lemma app_nil_l t : "" +:+ t = t.
Proof. reflexivity. Qed.

Lemma app_nil_r s : s +:+ "" = s.
Proof. induction s as [|a s IH]; [done|]. by rewrite app_cons, IH. Qed.

Lemma app_assoc s t u : (s +:+ t) +:+ u = s +:+ t +:+ u.
Proof.
  induction s as [|a s IH]; [done|].
  by rewrite !app_cons, IH.
Qed.

Lemma prefix_nil s : String.prefix "" s = true.
Proof. by destruct s. Qed.

Lemma prefix_cons a sub b s :
  String.prefix (String a sub) (String b s) =
  bool_decide (a = b) && String.prefix sub s.
Proof.
  simpl. destruct (ascii_dec a b) as [->|Hne].
  - by rewrite bool_decide_eq_true_2.
  - by rewrite bool_decide_eq_false_2.
Qed.

Lemma prefix_spec sub s :
  String.prefix sub s = true ↔ ∃ post, s = sub +:+ post.
Proof.
  revert s. induction sub as [|a sub IH]; intros s.
  - rewrite prefix_nil. split; [intros _; by exists s|done].
  - destruct s as [|b s].
    + split; [done|]. intros [post Hpost]. by rewrite app_cons in Hpost.
    + rewrite prefix_cons, andb_true_iff, bool_decide_eq_true, IH.
      split.
      * intros [-> [post ->]]. by exists post.
      * intros [post Hpost]. rewrite app_cons in Hpost.
        injection Hpost as -> ->. eauto.
Qed.

Lemma contains_nil sub : contains sub "" = String.prefix sub "".
Proof. unfold contains. apply orb_false_r. Qed.

Lemma contains_cons sub b s :
  contains sub (String b s) =
  String.prefix sub (String b s) || contains sub s.
Proof. reflexivity. Qed.

Lemma contains_spec sub s : contains sub s = true ↔ occurs_in sub s.
Proof.
  unfold occurs_in. induction s as [|b s IH].
  - rewrite contains_nil, prefix_spec. split.
    + intros [post ->]. by exists "", post.
    + intros [[|c pre] [post Hpost]].
      * by exists post.
      * by rewrite app_cons in Hpost.
  - rewrite contains_cons, orb_true_iff, IH, prefix_spec. split.
    + intros [[post ->]|(pre & post & ->)].
      * by exists "", post.
      * by exists (String b pre), post.
    + intros [[|c pre] [post Hpost]].
      * left. by exists post.
      * right. rewrite app_cons in Hpost. injection Hpost as -> ->. eauto.
Qed.

Lemma contains_app sub pre post : contains sub (pre +:+ sub +:+ post) = true.
Proof. apply contains_spec. by exists pre, post. Qed.

Lemma contains_refl s : contains s s = true.
Proof.
  apply contains_spec. exists "", "". by rewrite app_nil_l, app_nil_r.
Qed.

(** A block free of the character [q] cannot reach across an occurrence
    of [q]. *)
Lemma prefix_stop q sub l r :
  has_char q sub = false →
  String.prefix sub (l +:+ String q r) = String.prefix sub l.
Proof.
  revert sub. induction l as [|b l IH]; intros [|a sub] Hq; try done.
  - rewrite app_nil_l, prefix_cons. simpl in Hq.
    apply orb_false_iff in Hq as [Hqa _].
    apply Ascii.eqb_neq in Hqa.
    rewrite bool_decide_eq_false_2; [done|congruence].
  - rewrite app_cons, !prefix_cons. simpl in Hq.
    apply orb_false_iff in Hq as [_ Hq]. by rewrite IH.
Qed.

Lemma contains_split q sub l r :
  has_char q sub = false →
  contains sub (l +:+ String q r) = contains sub l || contains sub r.
Proof.
  intros Hq. induction l as [|b l IH].
  - rewrite app_nil_l, contains_cons, contains_nil.
    by rewrite <-(prefix_stop q sub "" r Hq), app_nil_l.
  - rewrite app_cons, !contains_cons.
    rewrite <-app_cons, prefix_stop, IH by done. by rewrite orb_assoc.
Qed.

Lemma truthy_spec s : truthy s = true ↔ s ≠ "".
Proof. by destruct s. Qed.

End PyStrFacts.

Import PyStrFacts.

(** * Facts about the two clause tables *)

Section Tables.

Lemma complexity_prompts_Some k v :
  complexity_prompts !! k = Some v →
  (k = "Simple" ∨ k = "Moderate" ∨ k = "Detailed" ∨ k = "Very Detailed") ∧
  complexity_prompts !! k = Some v.
Proof.
  intros H. split; [|done]. unfold complexity_prompts in H.
  rewrite !lookup_insert_Some, lookup_empty in H.
  intuition (subst; auto; discriminate).
Qed.

Lemma style_prompts_Some k v :
  style_prompts !! k = Some v →
  (k = "Traditional Mandala" ∨ k = "Geometric Patterns" ∨
   k = "Nature-Inspired" ∨ k = "Abstract Designs") ∧
  style_prompts !! k = Some v.
Proof.
  intros H. split; [|done]. unfold style_prompts in H.
  rewrite !lookup_insert_Some, lookup_empty in H.
  intuition (subst; auto; discriminate).
Qed.

(** The keys of [complexity_prompts] are the options of the slider. *)
Lemma complexity_prompts_dom k :
  is_Some (complexity_prompts !! k) ↔ k ∈ complexity_options.
Proof.
  unfold complexity_options. rewrite !elem_of_cons, elem_of_nil. split.
  - intros [v Hv]. apply complexity_prompts_Some in Hv. tauto.
  - intros [->|[->|[->|[->|[]]]]]; by eexists.
Qed.

(** The keys of [style_prompts] are the options of the select box. *)
Lemma style_prompts_dom k :
  is_Some (style_prompts !! k) ↔ k ∈ style_options.
Proof.
  unfold style_options. rewrite !elem_of_cons, elem_of_nil. split.
  - intros [v Hv]. apply style_prompts_Some in Hv. tauto.
  - intros [->|[->|[->|[->|[]]]]]; by eexists.
Qed.

Lemma complexity_prompts_None k :
  complexity_prompts !! k = None ↔ k ∉ complexity_options.
Proof. by rewrite <-complexity_prompts_dom, eq_None_not_Some. Qed.

Lemma style_prompts_None k :
  style_prompts !! k = None ↔ k ∉ style_options.
Proof. by rewrite <-style_prompts_dom, eq_None_not_Some. Qed.

End Tables.

(** * Facts about [create_mandala_prompt] *)

(** The triples the form passes to the builder: the guard of line 140 lets
    only a non-empty subject through, and the two widgets return one of
    their options. *)
Definition valid_triple (w c s : string) : Prop :=
  w ≠ "" ∧ c ∈ complexity_options ∧ s ∈ style_options.

Section Builder.

(** With both keys present the builder returns the filled template. *)
Lemma create_mandala_prompt_Some w c s cp sp :
  complexity_prompts !! c = Some cp →
  style_prompts !! s = Some sp →
  create_mandala_prompt w c s = inr (full_prompt (base_prompt w) cp sp).
Proof.
  intros Hc Hs. unfold create_mandala_prompt, getitem. by rewrite Hc, Hs.
Qed.

Lemma create_mandala_prompt_bad_complexity w c s :
  complexity_prompts !! c = None →
  create_mandala_prompt w c s = inl (KeyError c).
Proof.
  intros Hc. unfold create_mandala_prompt, getitem. by rewrite Hc.
Qed.

Lemma create_mandala_prompt_bad_style w c s cp :
  complexity_prompts !! c = Some cp →
  style_prompts !! s = None →
  create_mandala_prompt w c s = inl (KeyError s).
Proof.
  intros Hc Hs. unfold create_mandala_prompt, getitem. by rewrite Hc, Hs.
Qed.

(** Inversion: an output is always the filled template. *)
Lemma create_mandala_prompt_inr w c s p :
  create_mandala_prompt w c s = inr p →
  ∃ cp sp, complexity_prompts !! c = Some cp ∧
           style_prompts !! s = Some sp ∧
           p = full_prompt (base_prompt w) cp sp.
Proof.
  unfold create_mandala_prompt, getitem.
  destruct (complexity_prompts !! c) as [cp|] eqn:Hc; [|done].
  destruct (style_prompts !! s) as [sp|] eqn:Hs; [|done].
  intros [= <-]. by exists cp, sp.
Qed.

Lemma valid_triple_lookups w c s :
  valid_triple w c s →
  ∃ cp sp, complexity_prompts !! c = Some cp ∧ style_prompts !! s = Some sp.
Proof.
  intros (_ & Hc & Hs).
  apply complexity_prompts_dom in Hc as [cp Hc].
  apply style_prompts_dom in Hs as [sp Hs]. eauto.
Qed.

End Builder.

(** ** The four fields of the output *)

Section Fields.

Variables (w cp sp : string).

Lemma full_prompt_subject :
  full_prompt (base_prompt w) cp sp =
  base_prefix +:+ w +:+
    (base_suffix +:+ " " +:+ cp +:+ " " +:+ sp +:+ " " +:+ technical_specs).
Proof. unfold full_prompt, base_prompt. by rewrite !app_assoc. Qed.

Lemma full_prompt_complexity :
  full_prompt (base_prompt w) cp sp =
  (base_prompt w +:+ " ") +:+ cp +:+ (" " +:+ sp +:+ " " +:+ technical_specs).
Proof. unfold full_prompt. by rewrite !app_assoc. Qed.

Lemma full_prompt_style :
  full_prompt (base_prompt w) cp sp =
  (base_prompt w +:+ " " +:+ cp +:+ " ") +:+ sp +:+ (" " +:+ technical_specs).
Proof. unfold full_prompt. by rewrite !app_assoc. Qed.

Lemma full_prompt_technical :
  full_prompt (base_prompt w) cp sp =
  (base_prompt w +:+ " " +:+ cp +:+ " " +:+ sp +:+ " ") +:+ technical_specs.
Proof. unfold full_prompt. by rewrite !app_assoc. Qed.

Lemma full_prompt_join :
  full_prompt (base_prompt w) cp sp =
  String.concat " " [base_prompt w; cp; sp; technical_specs].
Proof. reflexivity. Qed.

End Fields.

#[local] Ltac with_lookups H cp sp Hc Hs :=
  destruct (valid_triple_lookups _ _ _ H) as (cp & sp & Hc & Hs).

(** ** Shape of the output *)

(** C2. For every valid triple the output is, in this order, the base
    sentence with the subject between its two quote characters, the clause
    stored under the requested complexity, the clause stored under the
    requested style and the technical block, joined by single blanks. *)
Theorem create_mandala_prompt_ordered_join w c s :
  valid_triple w c s →
  ∃ cp sp,
    complexity_prompts !! c = Some cp ∧
    style_prompts !! s = Some sp ∧
    create_mandala_prompt w c s =
      inr (String.concat " "
             [base_prefix +:+ w +:+ base_suffix; cp; sp; technical_specs]).
Proof.
  intros Hv. with_lookups Hv cp sp Hc Hs. exists cp, sp.
  split; [done|]. split; [done|].
  by rewrite (create_mandala_prompt_Some _ _ _ _ _ Hc Hs).
Qed.

Lemma create_mandala_prompt_ordered_join_witness :
  ∃ cp sp,
    complexity_prompts !! "Detailed" = Some cp ∧
    style_prompts !! "Nature-Inspired" = Some sp ∧
    create_mandala_prompt "harmony" "Detailed" "Nature-Inspired" =
      inr (String.concat " "
             [base_prefix +:+ "harmony" +:+ base_suffix; cp; sp; technical_specs]).
Proof.
  apply create_mandala_prompt_ordered_join.
  split; [discriminate|].
  split; apply list_elem_of_In; simpl; auto.
Defined.

(** C3. For every valid triple the output contains the subject, character
    for character. *)
Theorem create_mandala_prompt_contains_subject w c s :
  valid_triple w c s →
  ∃ p, create_mandala_prompt w c s = inr p ∧ contains w p = true.
Proof.
  intros Hv. with_lookups Hv cp sp Hc Hs.
  eexists. split; [by apply create_mandala_prompt_Some|].
  rewrite full_prompt_subject. apply contains_app.
Qed.

Lemma create_mandala_prompt_contains_subject_witness :
  ∃ p, create_mandala_prompt "love" "Moderate" "Abstract Designs" = inr p ∧
       contains "love" p = true.
Proof.
  apply create_mandala_prompt_contains_subject.
  split; [discriminate|].
  split; apply list_elem_of_In; simpl; auto.
Defined.

(** C5. For every valid triple, whatever the subject, complexity and style,
    the output ends with the whole technical block, unchanged. *)
Theorem create_mandala_prompt_contains_technical_specs w c s :
  valid_triple w c s →
  ∃ p, create_mandala_prompt w c s = inr p ∧
       contains technical_specs p = true ∧
       ∃ pre, p = pre +:+ technical_specs.
Proof.
  intros Hv. with_lookups Hv cp sp Hc Hs.
  eexists. split; [by apply create_mandala_prompt_Some|].
  rewrite full_prompt_technical. split; [|by eexists].
  rewrite <-(app_nil_r technical_specs) at 2. apply contains_app.
Qed.

Lemma create_mandala_prompt_contains_technical_specs_witness :
  ∃ p, create_mandala_prompt "nature" "Very Detailed" "Geometric Patterns" = inr p ∧
       contains technical_specs p = true ∧
       ∃ pre, p = pre +:+ technical_specs.
Proof.
  apply create_mandala_prompt_contains_technical_specs.
  split; [discriminate|].
  split; apply list_elem_of_In; simpl; auto.
Defined.

(** ** Failure on a key outside the tables *)

Lemma create_mandala_prompt_inl_iff w c s :
  (∃ e, create_mandala_prompt w c s = inl e) ↔
  c ∉ complexity_options ∨ s ∉ style_options.
Proof.
  rewrite <-complexity_prompts_None, <-style_prompts_None. split.
  - intros [e He].
    destruct (complexity_prompts !! c) as [cp|] eqn:Hc; [|by left].
    destruct (style_prompts !! s) as [sp|] eqn:Hs; [|by right].
    by rewrite (create_mandala_prompt_Some _ _ _ _ _ Hc Hs) in He.
  - intros [Hc|Hs].
    + eexists. by apply create_mandala_prompt_bad_complexity.
    + destruct (complexity_prompts !! c) as [cp|] eqn:Hc.
      * eexists. by eapply create_mandala_prompt_bad_style.
      * eexists. by apply create_mandala_prompt_bad_complexity.
Qed.

(** C6. When the complexity or the style is not one of its four values the
    call raises a key error naming the offending value (the complexity when
    both are bad, since it is looked up first) and returns no string. *)
Theorem create_mandala_prompt_invalid_option w c s :
  c ∉ complexity_options ∨ s ∉ style_options →
  (∃ k, create_mandala_prompt w c s = inl (KeyError k) ∧
        (k = c ∧ c ∉ complexity_options ∨
         k = s ∧ c ∈ complexity_options ∧ s ∉ style_options)) ∧
  (∀ p, create_mandala_prompt w c s ≠ inr p).
Proof.
  intros Hbad.
  assert (∃ k, create_mandala_prompt w c s = inl (KeyError k) ∧
        (k = c ∧ c ∉ complexity_options ∨
         k = s ∧ c ∈ complexity_options ∧ s ∉ style_options)) as Hk.
  { destruct (complexity_prompts !! c) as [cp|] eqn:Hc.
    - destruct Hbad as [Hbad|Hbad].
      + apply complexity_prompts_None in Hbad. congruence.
      + exists s. split.
        * eapply create_mandala_prompt_bad_style; [done|].
          by apply style_prompts_None.
        * right. split; [done|]. split; [|done].
          apply complexity_prompts_dom. by eexists.
    - exists c. split.
      + by apply create_mandala_prompt_bad_complexity.
      + left. split; [done|]. by apply complexity_prompts_None. }
  split; [done|]. destruct Hk as (k & -> & _). discriminate.
Qed.

Lemma create_mandala_prompt_invalid_option_witness :
  (∃ k, create_mandala_prompt "peace" "Extreme" "Traditional Mandala" =
          inl (KeyError k) ∧
        (k = "Extreme" ∧ "Extreme" ∉ complexity_options ∨
         k = "Traditional Mandala" ∧ "Extreme" ∈ complexity_options ∧
           "Traditional Mandala" ∉ style_options)) ∧
  (∀ p, create_mandala_prompt "peace" "Extreme" "Traditional Mandala" ≠ inr p).
Proof.
  apply create_mandala_prompt_invalid_option.
  left. rewrite list_elem_of_In. simpl. intuition discriminate.
Defined.

(** * Facts about the form *)

Section Form.

Lemma button_disabled_spec f :
  button_disabled f = true ↔ api_key f = "" ∨ word f = "".
Proof.
  unfold button_disabled, and_.
  destruct (api_key f), (word f); simpl; intuition discriminate.
Qed.

(** The guard of line 140. *)
Lemma attempts_generation_spec f :
  attempts_generation f ↔
  generate_button f = true ∧ api_key f ≠ "" ∧ word f ≠ "".
Proof.
  unfold attempts_generation, right_column.
  destruct (generate_button f), (api_key f), (word f); simpl;
    try (intuition (discriminate || congruence)).
  destruct (build_request _); intuition discriminate.
Qed.

Lemma right_column_Generate f r :
  right_column f = Generate r →
  attempts_generation f ∧ build_request f = inr r.
Proof.
  intros H. unfold attempts_generation. rewrite H. split; [done|].
  unfold right_column in H.
  destruct (generate_button f && truthy (api_key f) && truthy (word f)).
  - destruct (build_request f); congruence.
  - by repeat case_match.
Qed.

(** The request is built from the subject, the complexity and the style
    alone, as far as the prompt goes, and from the size alone, as far as
    the dimensions go. *)
Lemma build_request_inr f r :
  build_request f = inr r →
  create_mandala_prompt (word f) (complexity f) (style f) = inr (req_prompt r) ∧
  req_size r = parse_size (size f).
Proof.
  unfold build_request.
  destruct (create_mandala_prompt _ _ _) as [e|p]; simpl; [done|].
  by intros [= <-].
Qed.

(** Two runs that agree on subject, complexity and style send the same
    prompt, whatever the key, the size and the button are. *)
Lemma build_request_same_prompt f g r q :
  word f = word g → complexity f = complexity g → style f = style g →
  build_request f = inr r → build_request g = inr q →
  req_prompt r = req_prompt q.
Proof.
  intros Hw Hc Hs [Hr _]%build_request_inr [Hq _]%build_request_inr.
  rewrite Hw, Hc, Hs in Hr. congruence.
Qed.

Lemma build_request_total f :
  complexity f ∈ complexity_options →
  style f ∈ style_options →
  ∃ r, build_request f = inr r.
Proof.
  intros [cp Hc]%complexity_prompts_dom [sp Hs]%style_prompts_dom.
  unfold build_request.
  rewrite (create_mandala_prompt_Some _ _ _ _ _ Hc Hs). by eexists.
Qed.

End Form.

(** * Which clauses occur in the output *)

Section Clauses.

(** The base sentence up to, and from, the two quote characters. *)
Definition base_lead : string :=
  "Create a beautiful, symmetrical Mandala artwork inspired by the word ".

Definition after_subject (cp sp : string) : string :=
  ". " +:+ nl +:+
  "    The design should be in black and white line art style, perfect for coloring books."
  +:+ " " +:+ cp +:+ " " +:+ sp +:+ " " +:+ technical_specs.

Lemma full_prompt_quotes w cp sp :
  full_prompt (base_prompt w) cp sp =
  base_lead +:+ String "'" (w +:+ String "'" (after_subject cp sp)).
Proof.
  rewrite full_prompt_subject.
  change base_prefix with (base_lead +:+ String "'" "").
  by rewrite app_assoc.
Qed.

(** A text without a quote character lies before the subject, inside it
    or after it. *)
Lemma contains_full_prompt v w cp sp :
  has_char "'" v = false →
  contains v (full_prompt (base_prompt w) cp sp) =
  contains v base_lead || contains v w || contains v (after_subject cp sp).
Proof.
  intros Hq.
  by rewrite full_prompt_quotes, !contains_split, orb_assoc by done.
Qed.

End Clauses.

(** Evaluate a table lookup at a known key. *)
#[local] Ltac eval_lookup H :=
  vm_compute in H; injection H as <-.

(** Decide the occurrences of a known clause in the fixed parts of the
    output; what remains is the occurrence inside the subject. *)
#[local] Ltac count_fixed_parts :=
  rewrite contains_full_prompt by (vm_compute; reflexivity);
  match goal with
  | |- contains ?v base_lead || ?x || contains ?v ?t = bool_decide ?P || ?x =>
      let l := eval vm_compute in (contains v base_lead) in
      let r := eval vm_compute in (contains v t) in
      let b := eval vm_compute in (bool_decide P) in
      change (contains v base_lead) with l;
      change (contains v t) with r;
      change (bool_decide P) with b;
      destruct x; reflexivity
  end.

(** The clause stored under [k] in the complexity table occurs in the
    output exactly when [k] is the requested complexity or the subject
    itself contains that clause. *)
Lemma complexity_clause_occurrence w c s cp sp k v :
  complexity_prompts !! c = Some cp →
  style_prompts !! s = Some sp →
  complexity_prompts !! k = Some v →
  contains v (full_prompt (base_prompt w) cp sp) =
  bool_decide (k = c) || contains v w.
Proof.
  intros [Hc Hcp]%complexity_prompts_Some [Hs Hsp]%style_prompts_Some
         [Hk Hv]%complexity_prompts_Some.
  destruct Hc as [->|[->|[->| ->]]]; eval_lookup Hcp;
    destruct Hs as [->|[->|[->| ->]]]; eval_lookup Hsp;
    destruct Hk as [->|[->|[->| ->]]]; eval_lookup Hv;
    count_fixed_parts.
Qed.

(** The same for the style table. *)
Lemma style_clause_occurrence w c s cp sp k v :
  complexity_prompts !! c = Some cp →
  style_prompts !! s = Some sp →
  style_prompts !! k = Some v →
  contains v (full_prompt (base_prompt w) cp sp) =
  bool_decide (k = s) || contains v w.
Proof.
  intros [Hc Hcp]%complexity_prompts_Some [Hs Hsp]%style_prompts_Some
         [Hk Hv]%style_prompts_Some.
  destruct Hc as [->|[->|[->| ->]]]; eval_lookup Hcp;
    destruct Hs as [->|[->|[->| ->]]]; eval_lookup Hsp;
    destruct Hk as [->|[->|[->| ->]]]; eval_lookup Hv;
    count_fixed_parts.
Qed.

(** C4, as the code has it.  For every valid triple the output contains the
    clause stored under the requested complexity and the clause stored
    under the requested style.  A clause stored under any other key of
    either table occurs in the output only where the subject itself
    contains it: the fixed text and the two requested clauses contain no
    other clause. *)
Theorem create_mandala_prompt_clauses w c s :
  valid_triple w c s →
  ∃ p cp sp,
    create_mandala_prompt w c s = inr p ∧
    complexity_prompts !! c = Some cp ∧
    style_prompts !! s = Some sp ∧
    contains cp p = true ∧
    contains sp p = true ∧
    (∀ k v, complexity_prompts !! k = Some v → k ≠ c →
            contains v p = contains v w) ∧
    (∀ k v, style_prompts !! k = Some v → k ≠ s →
            contains v p = contains v w).
Proof.
  intros Hv. with_lookups Hv cp sp Hc Hs.
  exists (full_prompt (base_prompt w) cp sp), cp, sp.
  split; [by apply create_mandala_prompt_Some|].
  split; [done|]. split; [done|].
  split; [rewrite full_prompt_complexity; apply contains_app|].
  split; [rewrite full_prompt_style; apply contains_app|].
  split; intros k v Hk Hne.
  - rewrite (complexity_clause_occurrence w c s cp sp k v) by done.
    by rewrite bool_decide_eq_false_2.
  - rewrite (style_clause_occurrence w c s cp sp k v) by done.
    by rewrite bool_decide_eq_false_2.
Qed.

Lemma create_mandala_prompt_clauses_witness :
  ∃ p cp sp,
    create_mandala_prompt "peace" "Moderate" "Geometric Patterns" = inr p ∧
    complexity_prompts !! "Moderate" = Some cp ∧
    style_prompts !! "Geometric Patterns" = Some sp ∧
    contains cp p = true ∧
    contains sp p = true ∧
    (∀ k v, complexity_prompts !! k = Some v → k ≠ "Moderate" →
            contains v p = contains v "peace") ∧
    (∀ k v, style_prompts !! k = Some v → k ≠ "Geometric Patterns" →
            contains v p = contains v "peace").
Proof.
  apply create_mandala_prompt_clauses.
  split; [discriminate|].
  split; apply list_elem_of_In; simpl; auto.
Defined.

(** A subject that is itself the text stored under ["Simple"]. *)
Definition subject_quoting_a_clause : string :=
  "Use clean, simple geometric patterns with wide spaces for easy coloring. Minimal detail, bold lines.".

(** C4 as stated fails: with the subject above, complexity ["Moderate"] and
    style ["Traditional Mandala"] form a valid triple, yet the output
    contains the clause of ["Simple"] next to the requested one. *)
Lemma clause_of_other_complexity_counterexample :
  valid_triple subject_quoting_a_clause "Moderate" "Traditional Mandala" ∧
  ∃ p v,
    create_mandala_prompt subject_quoting_a_clause "Moderate" "Traditional Mandala"
      = inr p ∧
    complexity_prompts !! "Simple" = Some v ∧
    "Simple" ≠ "Moderate" ∧
    contains v p = true.
Proof.
  split.
  - split; [discriminate|]. split; apply list_elem_of_In; simpl; auto.
  - eexists _, _. split; [vm_compute; reflexivity|].
    split; [vm_compute; reflexivity|].
    split; [discriminate|]. vm_compute. reflexivity.
Qed.

(** ** The worked example *)

(** C7. The call with ["peace"], ["Simple"] and ["Traditional Mandala"]
    returns a string containing the subject, the clause of ["Simple"] (the
    one with "clean, simple geometric patterns"), the clause of
    ["Traditional Mandala"] (the one with "Sanskrit mandala design
    principles") and the technical block.  For any subject and style,
    the outputs for ["Simple"] and for ["Very Detailed"] have the same text
    before the complexity clause and the same text after it, and differ in
    that clause. *)
Theorem peace_example_and_complexity_swap :
  (∃ p cp sp,
     create_mandala_prompt "peace" "Simple" "Traditional Mandala" = inr p ∧
     complexity_prompts !! "Simple" = Some cp ∧
     style_prompts !! "Traditional Mandala" = Some sp ∧
     contains "clean, simple geometric patterns" cp = true ∧
     contains "Sanskrit mandala design principles" sp = true ∧
     contains "peace" p = true ∧
     contains cp p = true ∧
     contains sp p = true ∧
     contains technical_specs p = true) ∧
  (∀ w s, w ≠ "" → s ∈ style_options →
     ∃ cp cp' sp pre post,
       complexity_prompts !! "Simple" = Some cp ∧
       complexity_prompts !! "Very Detailed" = Some cp' ∧
       style_prompts !! s = Some sp ∧
       cp ≠ cp' ∧
       pre = base_prompt w +:+ " " ∧
       post = " " +:+ sp +:+ " " +:+ technical_specs ∧
       create_mandala_prompt w "Simple" s = inr (pre +:+ cp +:+ post) ∧
       create_mandala_prompt w "Very Detailed" s = inr (pre +:+ cp' +:+ post)).
Proof.
  split.
  - eexists _, _, _. split; [vm_compute; reflexivity|].
    repeat (split; [vm_compute; reflexivity|]). vm_compute. reflexivity.
  - intros w s _ [sp Hs]%style_prompts_dom.
    eexists _, _, sp, _, _.
    split; [vm_compute; reflexivity|].
    split; [vm_compute; reflexivity|].
    split; [done|]. split; [discriminate|].
    split; [reflexivity|]. split; [reflexivity|].
    rewrite <-!full_prompt_complexity.
    split; by apply create_mandala_prompt_Some.
Qed.

Lemma peace_example_and_complexity_swap_witness :
  ∃ cp cp' sp pre post,
    complexity_prompts !! "Simple" = Some cp ∧
    complexity_prompts !! "Very Detailed" = Some cp' ∧
    style_prompts !! "Nature-Inspired" = Some sp ∧
    cp ≠ cp' ∧
    pre = base_prompt "love" +:+ " " ∧
    post = " " +:+ sp +:+ " " +:+ technical_specs ∧
    create_mandala_prompt "love" "Simple" "Nature-Inspired"
      = inr (pre +:+ cp +:+ post) ∧
    create_mandala_prompt "love" "Very Detailed" "Nature-Inspired"
      = inr (pre +:+ cp' +:+ post).
Proof.
  apply (proj2 peace_example_and_complexity_swap "love" "Nature-Inspired").
  - discriminate.
  - apply list_elem_of_In. simpl. auto.
Defined.

(** * Defaults and guards in [main] *)

Lemma parse_size_default size :
  contains "1792x1024" size = false →
  contains "1024x1792" size = false →
  parse_size size = "1024x1024".
Proof. intros H1 H2. unfold parse_size. by rewrite H1, H2. Qed.

Lemma parse_size_wide size :
  contains "1792x1024" size = true → parse_size size = "1792x1024".
Proof. intros H. unfold parse_size. by rewrite H. Qed.

Lemma parse_size_tall size :
  contains "1792x1024" size = false →
  contains "1024x1792" size = true →
  parse_size size = "1024x1792".
Proof. intros H1 H2. unfold parse_size. by rewrite H1, H2. Qed.

(** C8, as the code has it.  Only the image size has a default.  A size
    text is recognised by what it contains: one with "1792x1024" in it is
    sent as "1792x1024", one with "1024x1792" but not "1792x1024" in it as
    "1024x1792", and every other text as the default "1024x1024"; the size
    of a request that is sent is the size so parsed.  The builder has no
    default: a complexity outside the table raises a key error naming it,
    and a run that entered the generation branch then shows the error and
    sends no request. *)
Theorem default_size_but_no_default_complexity :
  (∀ size,
     contains "1792x1024" size = true →
     parse_size size = "1792x1024") ∧
  (∀ size,
     contains "1792x1024" size = false →
     contains "1024x1792" size = true →
     parse_size size = "1024x1792") ∧
  (∀ size,
     contains "1792x1024" size = false →
     contains "1024x1792" size = false →
     parse_size size = "1024x1024") ∧
  (∀ f r,
     right_column f = Generate r →
     req_size r = parse_size (size f)) ∧
  (∀ w c s,
     c ∉ complexity_options →
     create_mandala_prompt w c s = inl (KeyError c)) ∧
  (∀ f,
     attempts_generation f →
     complexity f ∉ complexity_options →
     right_column f = ShowError (KeyError (complexity f))).
Proof.
  split; [exact parse_size_wide|].
  split; [exact parse_size_tall|].
  split; [exact parse_size_default|].
  split; [|split].
  - intros f r [_ Hr]%right_column_Generate.
    by apply build_request_inr in Hr as [_ Hsize].
  - intros w c s Hc. apply create_mandala_prompt_bad_complexity.
    by apply complexity_prompts_None.
  - intros f (Hb & Hk & Hw)%attempts_generation_spec Hc.
    apply truthy_spec in Hk, Hw. unfold right_column, build_request.
    rewrite Hb, Hk, Hw. simpl.
    rewrite create_mandala_prompt_bad_complexity; [done|].
    by apply complexity_prompts_None.
Qed.

Lemma default_size_but_no_default_complexity_witness :
  parse_size "1792x1024 (Wide)" = "1792x1024" ∧
  parse_size "1024x1792 (Tall)" = "1024x1792" ∧
  parse_size "2048x2048 (Huge)" = "1024x1024" ∧
  create_mandala_prompt "peace" "Extreme" "Traditional Mandala"
    = inl (KeyError "Extreme") ∧
  right_column
    (Form "sk-test" "peace" "Extreme" "Traditional Mandala" "1024x1024 (Standard)" true)
    = ShowError (KeyError "Extreme").
Proof.
  destruct default_size_but_no_default_complexity
    as (Hwide & Htall & Hsize & _ & Hprompt & Hrun).
  split; [apply Hwide; reflexivity|].
  split; [apply Htall; reflexivity|].
  split; [apply Hsize; reflexivity|].
  split.
  - apply Hprompt. rewrite list_elem_of_In. simpl. intuition discriminate.
  - apply (Hrun (Form "sk-test" "peace" "Extreme" "Traditional Mandala"
                      "1024x1024 (Standard)" true)).
    + exact I.
    + rewrite list_elem_of_In. simpl. intuition discriminate.
Defined.

(** C8 as stated fails: the complexity "Extreme" is not a key of the table,
    and the builder raises a key error naming it instead of falling back to
    a default and returning a prompt. *)
Lemma silent_fallback_counterexample :
  ("Extreme" ∉ complexity_options) ∧
  complexity_prompts !! "Extreme" = None ∧
  create_mandala_prompt "peace" "Extreme" "Traditional Mandala"
    = inl (KeyError "Extreme") ∧
  (∀ p, create_mandala_prompt "peace" "Extreme" "Traditional Mandala" ≠ inr p).
Proof.
  split; [rewrite list_elem_of_In; simpl; intuition discriminate|].
  split; [reflexivity|].
  split; [reflexivity|]. intros p. discriminate.
Qed.

(** C9. The button is disabled unless both the key and the subject are
    non-empty; a run enters the generation branch exactly when the button
    returned true and both are non-empty, so no request is ever built from
    an empty key or subject; and the request builder itself does not look
    at emptiness: with a complexity and a style from the tables it builds a
    request whatever the key and the subject are. *)
Theorem generation_needs_key_and_subject f :
  (button_disabled f = false ↔ api_key f ≠ "" ∧ word f ≠ "") ∧
  (attempts_generation f ↔
     generate_button f = true ∧ api_key f ≠ "" ∧ word f ≠ "") ∧
  (∀ r, right_column f = Generate r → api_key f ≠ "" ∧ word f ≠ "") ∧
  (complexity f ∈ complexity_options → style f ∈ style_options →
     ∃ r, build_request f = inr r).
Proof.
  split; [|split; [|split]].
  - rewrite <-not_true_iff_false, button_disabled_spec.
    destruct (api_key f), (word f); intuition discriminate.
  - apply attempts_generation_spec.
  - intros r [Hrun _]%right_column_Generate.
    apply attempts_generation_spec in Hrun. tauto.
  - apply build_request_total.
Qed.

Lemma generation_needs_key_and_subject_witness :
  ∃ r, build_request
         (Form "" "" "Simple" "Abstract Designs" "1024x1792 (Tall)" false)
       = inr r.
Proof.
  apply (generation_needs_key_and_subject
           (Form "" "" "Simple" "Abstract Designs" "1024x1792 (Tall)" false)).
  - apply list_elem_of_In. simpl. auto.
  - apply list_elem_of_In. simpl. auto.
Defined.

(** C10. The subject never makes the builder fail.  With a complexity and a
    style from the tables the call returns, for every subject, the empty
    one included, the output that starts with the base sentence carrying
    that subject between its two quote characters, followed by the two
    clauses and the technical block.  The call fails exactly when the
    complexity or the style is outside its table.  A run of the form with
    an empty subject never enters the generation branch. *)
Theorem create_mandala_prompt_accepts_any_subject w c s :
  (c ∈ complexity_options → s ∈ style_options →
     ∃ cp sp,
       complexity_prompts !! c = Some cp ∧
       style_prompts !! s = Some sp ∧
       create_mandala_prompt w c s =
         inr ("Create a beautiful, symmetrical Mandala artwork inspired by the word "
              +:+ "'" +:+ w +:+ "'" +:+ ". " +:+ nl +:+
              "    The design should be in black and white line art style, perfect for coloring books."
              +:+ " " +:+ cp +:+ " " +:+ sp +:+ " " +:+ technical_specs)) ∧
  ((∃ e, create_mandala_prompt w c s = inl e) ↔
     c ∉ complexity_options ∨ s ∉ style_options) ∧
  (∀ f, word f = "" → ¬ attempts_generation f).
Proof.
  split; [|split].
  - intros [cp Hc]%complexity_prompts_dom [sp Hs]%style_prompts_dom.
    exists cp, sp. split; [done|]. split; [done|].
    rewrite (create_mandala_prompt_Some _ _ _ _ _ Hc Hs).
    by rewrite full_prompt_quotes.
  - apply create_mandala_prompt_inl_iff.
  - intros f Hw (_ & _ & Hne)%attempts_generation_spec. done.
Qed.

Lemma create_mandala_prompt_accepts_any_subject_witness :
  ∃ cp sp,
    complexity_prompts !! "Moderate" = Some cp ∧
    style_prompts !! "Traditional Mandala" = Some sp ∧
    create_mandala_prompt "" "Moderate" "Traditional Mandala" =
      inr ("Create a beautiful, symmetrical Mandala artwork inspired by the word "
           +:+ "'" +:+ "" +:+ "'" +:+ ". " +:+ nl +:+
           "    The design should be in black and white line art style, perfect for coloring books."
           +:+ " " +:+ cp +:+ " " +:+ sp +:+ " " +:+ technical_specs).
Proof.
  apply (create_mandala_prompt_accepts_any_subject
           "" "Moderate" "Traditional Mandala").
  - apply list_elem_of_In. simpl. auto.
  - apply list_elem_of_In. simpl. auto.
Defined.

(** * Further facts about strings *)

Module PyStrMore.

Lemma length_app s t :
  String.length (s +:+ t) = (String.length s + String.length t)%nat.
Proof.
  induction s as [|a s IH]; [done|].
  rewrite app_cons. simpl. by rewrite IH.
Qed.

Lemma has_char_app q s t :
  has_char q (s +:+ t) = has_char q s || has_char q t.
Proof.
  induction s as [|a s IH]; [done|].
  rewrite app_cons. simpl. by rewrite IH, orb_assoc.
Qed.

Lemma all_chars_app P s t :
  all_chars P (s +:+ t) = all_chars P s && all_chars P t.
Proof.
  induction s as [|a s IH]; [done|].
  rewrite app_cons. simpl. by rewrite IH, andb_assoc.
Qed.

(** The last occurrence of a character splits a string in one way only. *)
Lemma app_last_char_inj q s1 t1 s2 t2 :
  has_char q t1 = false → has_char q t2 = false →
  s1 +:+ String q t1 = s2 +:+ String q t2 →
  s1 = s2 ∧ t1 = t2.
Proof.
  intros H1 H2. revert s2.
  induction s1 as [|a s1 IH]; intros [|b s2]; rewrite ?app_cons, ?app_nil_l.
  - by intros [= ->].
  - intros [= <- ->]. rewrite has_char_app in H1. simpl in H1.
    rewrite Ascii.eqb_refl, orb_true_r in H1. done.
  - intros [= -> <-]. rewrite has_char_app in H2. simpl in H2.
    rewrite Ascii.eqb_refl, orb_true_r in H2. done.
  - intros [= -> H]. destruct (IH _ H) as [-> ->]. done.
Qed.

(** Tails of equal length split a string in one way only. *)
Lemma app_inj_length s1 t1 s2 t2 :
  String.length t1 = String.length t2 →
  s1 +:+ t1 = s2 +:+ t2 →
  s1 = s2 ∧ t1 = t2.
Proof.
  intros Hlen. revert s2.
  induction s1 as [|a s1 IH]; intros [|b s2]; rewrite ?app_cons, ?app_nil_l.
  - done.
  - intros ->. simpl in Hlen.
    rewrite length_app in Hlen. lia.
  - intros <-. simpl in Hlen.
    rewrite length_app in Hlen. lia.
  - intros [= -> H]. destruct (IH _ H) as [-> ->]. done.
Qed.

End PyStrMore.

Import PyStrMore.

(** * Further facts about the builder *)

Lemma after_subject_no_quote c s cp sp :
  complexity_prompts !! c = Some cp →
  style_prompts !! s = Some sp →
  has_char "'" (after_subject cp sp) = false.
Proof.
  intros [Hc Hcp]%complexity_prompts_Some [Hs Hsp]%style_prompts_Some.
  destruct Hc as [->|[->|[->| ->]]]; eval_lookup Hcp;
    destruct Hs as [->|[->|[->| ->]]]; eval_lookup Hsp;
    vm_compute; reflexivity.
Qed.

(** The text after the subject tells the two keys. *)
Lemma clauses_inj c1 s1 cp1 sp1 c2 s2 cp2 sp2 :
  complexity_prompts !! c1 = Some cp1 →
  style_prompts !! s1 = Some sp1 →
  complexity_prompts !! c2 = Some cp2 →
  style_prompts !! s2 = Some sp2 →
  after_subject cp1 sp1 = after_subject cp2 sp2 →
  c1 = c2 ∧ s1 = s2.
Proof.
  intros [Hc1 Hcp1]%complexity_prompts_Some [Hs1 Hsp1]%style_prompts_Some
         [Hc2 Hcp2]%complexity_prompts_Some [Hs2 Hsp2]%style_prompts_Some.
  destruct Hc1 as [->|[->|[->| ->]]]; eval_lookup Hcp1;
    destruct Hs1 as [->|[->|[->| ->]]]; eval_lookup Hsp1;
    destruct Hc2 as [->|[->|[->| ->]]]; eval_lookup Hcp2;
    destruct Hs2 as [->|[->|[->| ->]]]; eval_lookup Hsp2;
    intros H;
    first [ split; reflexivity
          | apply String.eqb_eq in H; vm_compute in H; discriminate H ].
Qed.

(** X1. The builder is injective: two successful calls that return the
    same string were given the same subject, the same complexity and the
    same style.  The last quote character of the output ends the subject,
    whatever the subject contains. *)
Theorem create_mandala_prompt_injective w1 c1 s1 w2 c2 s2 p :
  create_mandala_prompt w1 c1 s1 = inr p →
  create_mandala_prompt w2 c2 s2 = inr p →
  w1 = w2 ∧ c1 = c2 ∧ s1 = s2.
Proof.
  intros (cp1 & sp1 & Hc1 & Hs1 & ->)%create_mandala_prompt_inr
         (cp2 & sp2 & Hc2 & Hs2 & Heq)%create_mandala_prompt_inr.
  rewrite !full_prompt_quotes in Heq.
  apply (inj (String.app base_lead)) in Heq. injection Heq as Heq.
  apply app_last_char_inj in Heq as [-> Heq];
    [|by eapply after_subject_no_quote..].
  split; [done|]. by eapply clauses_inj.
Qed.

Lemma create_mandala_prompt_injective_witness :
  "peace" = "peace" ∧ "Simple" = "Simple" ∧
  "Abstract Designs" = "Abstract Designs".
Proof.
  eapply create_mandala_prompt_injective; vm_compute; reflexivity.
Defined.

Lemma full_prompt_length w cp sp :
  String.length (full_prompt (base_prompt w) cp sp) =
  (String.length w + String.length cp + String.length sp + 491)%nat.
Proof.
  unfold full_prompt, base_prompt. rewrite !length_app.
  change (String.length base_prefix) with 70%nat.
  change (String.length base_suffix) with 91%nat.
  change (String.length technical_specs) with 327%nat.
  change (String.length " ") with 1%nat. lia.
Qed.

Lemma clause_lengths c s cp sp :
  complexity_prompts !! c = Some cp →
  style_prompts !! s = Some sp →
  (97 ≤ String.length cp ≤ 111 ∧ 81 ≤ String.length sp ≤ 112)%nat.
Proof.
  intros [Hc Hcp]%complexity_prompts_Some [Hs Hsp]%style_prompts_Some.
  destruct Hc as [->|[->|[->| ->]]]; eval_lookup Hcp;
    destruct Hs as [->|[->|[->| ->]]]; eval_lookup Hsp;
    vm_compute; repeat split; apply Nat.leb_le; reflexivity.
Qed.

(** X2. The output is as long as the subject, the two clauses and 491
    characters of fixed text together: between 669 and 714 characters more
    than the subject. *)
Theorem create_mandala_prompt_length w c s p :
  create_mandala_prompt w c s = inr p →
  ∃ cp sp,
    complexity_prompts !! c = Some cp ∧
    style_prompts !! s = Some sp ∧
    String.length p =
      (String.length w + String.length cp + String.length sp + 491)%nat ∧
    (String.length w + 669 ≤ String.length p ≤ String.length w + 714)%nat.
Proof.
  intros (cp & sp & Hc & Hs & ->)%create_mandala_prompt_inr.
  exists cp, sp. split; [done|]. split; [done|].
  rewrite full_prompt_length. split; [done|].
  pose proof (clause_lengths c s cp sp Hc Hs). lia.
Qed.

Lemma create_mandala_prompt_length_witness :
  ∃ p, create_mandala_prompt "joy" "Detailed" "Abstract Designs" = inr p ∧
  ∃ cp sp,
    complexity_prompts !! "Detailed" = Some cp ∧
    style_prompts !! "Abstract Designs" = Some sp ∧
    String.length p =
      (String.length "joy" + String.length cp + String.length sp + 491)%nat ∧
    (String.length "joy" + 669 ≤ String.length p ≤ String.length "joy" + 714)%nat.
Proof.
  eexists. split; [vm_compute; reflexivity|].
  apply (create_mandala_prompt_length "joy" "Detailed" "Abstract Designs").
  vm_compute. reflexivity.
Defined.

(** X3. The builder adds printable characters and line feeds only: the
    output consists of such characters exactly when the subject does. *)
Theorem create_mandala_prompt_text w c s p :
  create_mandala_prompt w c s = inr p →
  all_chars is_text p = all_chars is_text w.
Proof.
  intros (cp & sp & Hc & Hs & ->)%create_mandala_prompt_inr.
  rewrite full_prompt_subject, !all_chars_app.
  apply complexity_prompts_Some in Hc as [Hc Hcp].
  apply style_prompts_Some in Hs as [Hs Hsp].
  assert (all_chars is_text base_suffix && all_chars is_text " " &&
          all_chars is_text cp && all_chars is_text sp &&
          all_chars is_text technical_specs = true) as Hfixed.
  { destruct Hc as [->|[->|[->| ->]]]; eval_lookup Hcp;
      destruct Hs as [->|[->|[->| ->]]]; eval_lookup Hsp;
      vm_compute; reflexivity. }
  repeat (apply andb_true_iff in Hfixed as [Hfixed ?]).
  change (all_chars is_text base_prefix) with true.
  by repeat match goal with H : _ = true |- _ => rewrite H; clear H end;
    rewrite ?andb_true_r.
Qed.

Lemma create_mandala_prompt_text_witness :
  ∃ p, create_mandala_prompt "joy" "Detailed" "Abstract Designs" = inr p ∧
       all_chars is_text p = all_chars is_text "joy".
Proof.
  eexists. split; [vm_compute; reflexivity|].
  apply (create_mandala_prompt_text "joy" "Detailed" "Abstract Designs").
  vm_compute. reflexivity.
Defined.

(** * Further facts about the image size *)

(** X4. Whatever the size text is, the size sent is one of the three sizes
    of the API; on these three [parse_size] changes nothing, so parsing
    twice is parsing once. *)
Theorem parse_size_range_idempotent size :
  parse_size size ∈ api_sizes ∧
  (size ∈ api_sizes → parse_size size = size) ∧
  parse_size (parse_size size) = parse_size size.
Proof.
  assert (parse_size size ∈ api_sizes) as Hin.
  { unfold parse_size, api_sizes. repeat case_match; set_solver. }
  assert (∀ x, x ∈ api_sizes → parse_size x = x) as Hfix.
  { intros x. unfold api_sizes. rewrite !elem_of_cons, elem_of_nil.
    intros [->|[->|[->|[]]]]; reflexivity. }
  auto.
Qed.

(** X5. The text around a size is ignored: a text with "1792x1024" in it is
    sent as that size, also when it names the tall size too; a text with
    "1024x1792" in it is sent as that size unless it names the wide one. *)
Theorem parse_size_ignores_context pre post :
  parse_size (pre +:+ "1792x1024" +:+ post) = "1792x1024" ∧
  (contains "1792x1024" (pre +:+ "1024x1792" +:+ post) = false →
   parse_size (pre +:+ "1024x1792" +:+ post) = "1024x1792").
Proof.
  unfold parse_size. split.
  - by rewrite contains_app.
  - intros ->. by rewrite contains_app.
Qed.

(** X6. Every option of the size box is sent as the dimensions its label
    starts with, and different options are sent as different sizes. *)
Theorem size_options_dispatch size :
  size ∈ size_options →
  String.prefix (parse_size size) size = true ∧
  (∀ size', size' ∈ size_options →
            parse_size size = parse_size size' → size = size').
Proof.
  unfold size_options. rewrite !elem_of_cons, elem_of_nil.
  intros [->|[->|[->|[]]]]; (split; [reflexivity|]);
    intros size'; rewrite !elem_of_cons, elem_of_nil;
    intros [->|[->|[->|[]]]]; vm_compute; first [done | discriminate].
Qed.

Lemma size_options_dispatch_witness :
  String.prefix (parse_size "1792x1024 (Wide)") "1792x1024 (Wide)" = true ∧
  (∀ size', size' ∈ size_options →
            parse_size "1792x1024 (Wide)" = parse_size size' →
            "1792x1024 (Wide)" = size').
Proof.
  apply (size_options_dispatch "1792x1024 (Wide)").
  apply list_elem_of_In. simpl. auto.
Defined.

(** * Further facts about the form *)

(** X7. Which hint the right column shows: the hint about the key exactly
    when the key is empty (also when the subject is empty too), the hint
    about the subject exactly when only the subject is empty, and nothing
    exactly when both are given and the button was not pressed. *)
Theorem right_column_hints f :
  (right_column f = InfoApiKey ↔ api_key f = "") ∧
  (right_column f = InfoWord ↔ api_key f ≠ "" ∧ word f = "") ∧
  (right_column f = Idle ↔
     api_key f ≠ "" ∧ word f ≠ "" ∧ generate_button f = false).
Proof.
  unfold right_column.
  destruct (generate_button f), (api_key f), (word f); simpl;
    try destruct (build_request _); intuition (discriminate || congruence).
Qed.

(** X8. The button is disabled exactly in the runs in which the right
    column shows one of the two hints. *)
Theorem button_disabled_iff_hint f :
  button_disabled f = true ↔
  right_column f = InfoApiKey ∨ right_column f = InfoWord.
Proof.
  unfold button_disabled, and_, right_column.
  destruct (generate_button f), (api_key f), (word f); simpl;
    try destruct (build_request _); intuition (discriminate || congruence).
Qed.

(** X9. The getting-started box of the sidebar and the key hint of the
    right column are shown in the same runs. *)
Theorem sidebar_instructions_iff_key_hint f :
  sidebar_instructions f = true ↔ right_column f = InfoApiKey.
Proof.
  unfold sidebar_instructions, right_column.
  destruct (generate_button f), (api_key f), (word f); simpl;
    try destruct (build_request _); intuition (discriminate || congruence).
Qed.

(** X10. With the complexity and the style taken from the options of their
    widgets no run shows a key error, and a run with the button pressed, a
    key and a subject sends a request. *)
Theorem options_never_raise f :
  complexity f ∈ complexity_options →
  style f ∈ style_options →
  (∀ e, right_column f ≠ ShowError e) ∧
  (generate_button f = true → api_key f ≠ "" → word f ≠ "" →
   ∃ r, right_column f = Generate r).
Proof.
  intros Hc Hs.
  destruct (build_request_total f Hc Hs) as [r Hr].
  unfold right_column. rewrite Hr. split.
  - intros e. by repeat case_match.
  - intros -> Hk%truthy_spec Hw%truthy_spec. exists r.
    by rewrite Hk, Hw.
Qed.

Lemma options_never_raise_witness :
  (∀ e, right_column
          (Form "sk-test" "peace" "Simple" "Nature-Inspired" "1024x1792 (Tall)" true)
        ≠ ShowError e) ∧
  (generate_button
     (Form "sk-test" "peace" "Simple" "Nature-Inspired" "1024x1792 (Tall)" true)
     = true →
   api_key
     (Form "sk-test" "peace" "Simple" "Nature-Inspired" "1024x1792 (Tall)" true)
     ≠ "" →
   word
     (Form "sk-test" "peace" "Simple" "Nature-Inspired" "1024x1792 (Tall)" true)
     ≠ "" →
   ∃ r, right_column
          (Form "sk-test" "peace" "Simple" "Nature-Inspired" "1024x1792 (Tall)" true)
        = Generate r).
Proof.
  apply (options_never_raise
           (Form "sk-test" "peace" "Simple" "Nature-Inspired" "1024x1792 (Tall)" true)).
  - apply list_elem_of_In. simpl. auto.
  - apply list_elem_of_In. simpl. auto.
Defined.

(** X11. Every request that is sent asks the model "dall-e-3" for one image
    of quality "hd", in the size parsed from the size box, which is one of
    the three sizes of the API, with the prompt the builder returns for the
    subject, the complexity and the style of the form. *)
Theorem generated_request_shape f r :
  right_column f = Generate r →
  req_model r = "dall-e-3" ∧ req_quality r = "hd" ∧ req_n r = 1%nat ∧
  req_size r = parse_size (size f) ∧ req_size r ∈ api_sizes ∧
  create_mandala_prompt (word f) (complexity f) (style f)
    = inr (req_prompt r).
Proof.
  intros [_ Hr]%right_column_Generate. unfold build_request in Hr.
  destruct (create_mandala_prompt _ _ _) as [e|p]; [done|].
  injection Hr as <-. simpl. repeat split.
  unfold parse_size, api_sizes. repeat case_match; set_solver.
Qed.

Lemma generated_request_shape_witness :
  ∃ r,
    right_column
      (Form "sk-test" "peace" "Simple" "Nature-Inspired" "1792x1024 (Wide)" true)
      = Generate r ∧
    (req_model r = "dall-e-3" ∧ req_quality r = "hd" ∧ req_n r = 1%nat ∧
     req_size r = parse_size "1792x1024 (Wide)" ∧ req_size r ∈ api_sizes ∧
     create_mandala_prompt "peace" "Simple" "Nature-Inspired"
       = inr (req_prompt r)).
Proof.
  eexists. split; [vm_compute; reflexivity|].
  apply (generated_request_shape
           (Form "sk-test" "peace" "Simple" "Nature-Inspired" "1792x1024 (Wide)" true)).
  vm_compute. reflexivity.
Defined.

(** X12. If the button never reports a click while it is disabled, the
    tests of the key and of the subject on line 140 change nothing: the
    generation branch runs exactly when the button reports a click. *)
Theorem guard_redundant_for_disabled_button f :
  (generate_button f = true → button_disabled f = false) →
  (attempts_generation f ↔ generate_button f = true).
Proof.
  intros Hwidget. rewrite attempts_generation_spec. split; [tauto|].
  intros Hb. specialize (Hwidget Hb). split; [done|].
  unfold button_disabled, and_ in Hwidget.
  destruct (api_key f), (word f); simpl in Hwidget; done.
Qed.

Lemma guard_redundant_for_disabled_button_witness :
  attempts_generation
    (Form "sk-test" "peace" "Simple" "Nature-Inspired" "1792x1024 (Wide)" true)
  ↔ generate_button
      (Form "sk-test" "peace" "Simple" "Nature-Inspired" "1792x1024 (Wide)" true)
    = true.
Proof.
  apply (guard_redundant_for_disabled_button
           (Form "sk-test" "peace" "Simple" "Nature-Inspired" "1792x1024 (Wide)" true)).
  intros _. reflexivity.
Defined.

(** * The download name and the caption *)

Section Timestamp.

Local Open Scope Z_scope.

Lemma valid_datetime_spec d :
  valid_datetime d = true ↔
  1000 ≤ year d ≤ 9999 ∧ 1 ≤ month d ≤ 12 ∧ 1 ≤ day d ≤ 31 ∧
  0 ≤ hour d < 24 ∧ 0 ≤ minute d < 60 ∧ 0 ≤ second d < 60.
Proof.
  unfold valid_datetime.
  rewrite !andb_true_iff, !Z.leb_le, !Z.ltb_lt. tauto.
Qed.

Lemma N_of_digit n : 0 ≤ n < 10 → N_of_ascii (digit n) = Z.to_N (48 + n).
Proof.
  intros Hn. unfold digit. apply N_ascii_embedding. lia.
Qed.

Lemma digit_inj a b : 0 ≤ a < 10 → 0 ≤ b < 10 → digit a = digit b → a = b.
Proof.
  intros Ha Hb Heq. apply (f_equal N_of_ascii) in Heq.
  rewrite !N_of_digit in Heq by done. lia.
Qed.

Lemma digit_compare a b :
  0 ≤ a < 10 → 0 ≤ b < 10 → Ascii.compare (digit a) (digit b) = (a ?= b).
Proof.
  intros Ha Hb. unfold Ascii.compare. rewrite !N_of_digit by done.
  rewrite Z2N.inj_compare by lia. apply Z.add_compare_mono_l.
Qed.

Lemma pad2_inj a b : 0 ≤ a < 100 → 0 ≤ b < 100 → pad2 a = pad2 b → a = b.
Proof.
  intros Ha Hb. unfold pad2. intros [= H1 H2].
  apply digit_inj in H1, H2;
    [|try apply Z.mod_pos_bound; try (split; [apply Z.div_pos|apply Z.div_lt_upper_bound]); lia..].
  rewrite (Z.div_mod a 10), (Z.div_mod b 10) by lia. congruence.
Qed.

(** The fourteen digits and the underscore. *)
Lemma timestamp_chars d :
  timestamp d =
  pad2 (year d / 100) +:+ pad2 (year d mod 100) +:+ pad2 (month d) +:+
  pad2 (day d) +:+ String "_" (pad2 (hour d) +:+ pad2 (minute d) +:+
  pad2 (second d)).
Proof. reflexivity. Qed.

Lemma timestamp_length d : String.length (timestamp d) = 15%nat.
Proof. reflexivity. Qed.

Lemma timestamp_inj d1 d2 :
  valid_datetime d1 = true → valid_datetime d2 = true →
  timestamp d1 = timestamp d2 → d1 = d2.
Proof.
  intros H1%valid_datetime_spec H2%valid_datetime_spec.
  destruct d1 as [y1 m1 a1 h1 n1 s1], d2 as [y2 m2 a2 h2 n2 s2].
  simpl in H1, H2. rewrite !timestamp_chars. simpl.
  intros [= Y1 Y2 Y3 Y4 M1 M2 A1 A2 H1' H2' N1 N2 S1 S2].
  assert (∀ a b, pad2 a = pad2 b ↔ digit (a / 10) = digit (b / 10) ∧
                                   digit (a mod 10) = digit (b mod 10)) as Hp.
  { intros a b. unfold pad2. split; [by intros [= -> ->]|by intros [-> ->]]. }
  assert (y1 / 100 = y2 / 100) as Hy by
    (apply pad2_inj; [split; [apply Z.div_pos|apply Z.div_lt_upper_bound]; lia..|by apply Hp]).
  assert (y1 mod 100 = y2 mod 100) as Hy' by
    (apply pad2_inj; [apply Z.mod_pos_bound; lia..|by apply Hp]).
  assert (y1 = y2) as ->
    by (rewrite (Z.div_mod y1 100), (Z.div_mod y2 100) by lia; congruence).
  f_equal; apply pad2_inj; try lia; by apply Hp.
Qed.

End Timestamp.

Section Order.

Local Open Scope Z_scope.

Lemma lex_assoc a b c : lex (lex a b) c = lex a (lex b c).
Proof. by destruct a. Qed.

Lemma lex_Eq_r a : lex a Eq = a.
Proof. by destruct a. Qed.

Lemma compare_cons a b s t :
  String.compare (String a s) (String b t) =
  lex (Ascii.compare a b) (String.compare s t).
Proof. simpl. by destruct (Ascii.compare a b). Qed.

Lemma ascii_compare_refl a : Ascii.compare a a = Eq.
Proof. unfold Ascii.compare. apply N.compare_refl. Qed.

Lemma compare_refl s : String.compare s s = Eq.
Proof.
  induction s as [|a s IH]; [done|].
  by rewrite compare_cons, ascii_compare_refl.
Qed.

Lemma compare_app_l p s t :
  String.compare (p +:+ s) (p +:+ t) = String.compare s t.
Proof.
  induction p as [|a p IH]; [done|].
  by rewrite !app_cons, compare_cons, ascii_compare_refl.
Qed.

(** Comparing two numbers is comparing their quotients, then their
    remainders. *)
Lemma compare_div_mod k a b :
  0 < k → (a ?= b) = lex (a / k ?= b / k) (a mod k ?= b mod k).
Proof.
  intros Hk.
  pose proof (Z.mod_pos_bound a k Hk). pose proof (Z.mod_pos_bound b k Hk).
  rewrite (Z.div_mod a k) at 1 by lia. rewrite (Z.div_mod b k) at 1 by lia.
  destruct (Z.compare_spec (a / k) (b / k)) as [->|Hlt|Hgt]; simpl.
  - apply Z.add_compare_mono_l.
  - apply Z.compare_lt_iff. nia.
  - apply Z.compare_gt_iff. nia.
Qed.

Lemma pad2_compare a b s t :
  0 ≤ a < 100 → 0 ≤ b < 100 →
  String.compare (pad2 a +:+ s) (pad2 b +:+ t) =
  lex (a ?= b) (String.compare s t).
Proof.
  intros Ha Hb. unfold pad2. rewrite !app_cons, !app_nil_l, !compare_cons.
  rewrite !digit_compare;
    [|try apply Z.mod_pos_bound; try (split; [apply Z.div_pos|apply Z.div_lt_upper_bound]); lia..].
  by rewrite (compare_div_mod 10 a b), lex_assoc.
Qed.

Lemma timestamp_compare_app d1 d2 s :
  valid_datetime d1 = true → valid_datetime d2 = true →
  String.compare (timestamp d1 +:+ s) (timestamp d2 +:+ s) =
  datetime_compare d1 d2.
Proof.
  intros H1%valid_datetime_spec H2%valid_datetime_spec.
  rewrite !timestamp_chars, !app_assoc, !app_cons, !app_assoc.
  rewrite !pad2_compare, compare_cons, !pad2_compare;
    [|try apply Z.mod_pos_bound; try (split; [apply Z.div_pos|apply Z.div_lt_upper_bound]); lia..].
  rewrite ascii_compare_refl, compare_refl, lex_Eq_r.
  rewrite <-lex_assoc, <-(compare_div_mod 100). reflexivity. lia.
Qed.

End Order.

(** X13. The name of the download tells the subject and the second of its
    creation: two names are equal only for the same subject and the same
    instant, whatever characters the subject holds. *)
Theorem filename_injective w1 d1 w2 d2 :
  valid_datetime d1 = true → valid_datetime d2 = true →
  filename w1 d1 = filename w2 d2 →
  w1 = w2 ∧ d1 = d2.
Proof.
  intros Hv1 Hv2 Heq. unfold filename in Heq.
  apply (inj (String.app "mandala_")) in Heq.
  apply app_inj_length in Heq as [-> Heq]; [|reflexivity].
  split; [done|]. apply (inj (String.app "_")) in Heq.
  apply app_inj_length in Heq as [Heq _]; [|reflexivity].
  by apply timestamp_inj.
Qed.

Lemma filename_injective_witness :
  "peace" = "peace" ∧
  Datetime 2024 3 9 7 5 0 = Datetime 2024 3 9 7 5 0.
Proof.
  apply (filename_injective "peace" (Datetime 2024 3 9 7 5 0)
                            "peace" (Datetime 2024 3 9 7 5 0));
    reflexivity.
Defined.

(** X14. For one subject the names of the downloads sort as the instants
    of their creation: comparing two names character by character gives
    the chronological order. *)
Theorem filename_chronological w d1 d2 :
  valid_datetime d1 = true → valid_datetime d2 = true →
  String.compare (filename w d1) (filename w d2) = datetime_compare d1 d2.
Proof.
  intros Hv1 Hv2. unfold filename.
  rewrite !compare_app_l. by apply timestamp_compare_app.
Qed.

Lemma filename_chronological_witness :
  String.compare (filename "peace" (Datetime 2024 12 31 23 59 59))
                 (filename "peace" (Datetime 2025 1 1 0 0 0))
  = datetime_compare (Datetime 2024 12 31 23 59 59) (Datetime 2025 1 1 0 0 0).
Proof.
  apply (filename_chronological "peace" (Datetime 2024 12 31 23 59 59)
                                (Datetime 2025 1 1 0 0 0));
    reflexivity.
Defined.

Section Title.

Lemma to_upper_idemp c : to_upper (to_upper c) = to_upper c.
Proof. by destruct c as [[] [] [] [] [] [] [] []]. Qed.

Lemma to_lower_idemp c : to_lower (to_lower c) = to_lower c.
Proof. by destruct c as [[] [] [] [] [] [] [] []]. Qed.

Lemma is_cased_to_upper c : is_cased (to_upper c) = is_cased c.
Proof. by destruct c as [[] [] [] [] [] [] [] []]. Qed.

Lemma is_cased_to_lower c : is_cased (to_lower c) = is_cased c.
Proof. by destruct c as [[] [] [] [] [] [] [] []]. Qed.

Lemma title_from_length b s :
  String.length (title_from b s) = String.length s.
Proof.
  revert b. induction s as [|c s IH]; intros b; [done|].
  simpl. by rewrite IH.
Qed.

Lemma title_from_idemp b s : title_from b (title_from b s) = title_from b s.
Proof.
  revert b. induction s as [|c s IH]; intros b; [done|].
  simpl. destruct b.
  - by rewrite to_lower_idemp, is_cased_to_lower, IH.
  - by rewrite to_upper_idemp, is_cased_to_upper, IH.
Qed.

End Title.

(** X15. For an ASCII subject, title-casing keeps the length and is
    idempotent, and the caption is 21 characters longer than the
    subject. *)
Theorem title_idempotent_same_length w :
  all_chars is_ascii_char w = true →
  title (title w) = title w ∧
  String.length (title w) = String.length w ∧
  String.length (caption w) = (21 + String.length w)%nat.
Proof.
  intros _. unfold caption, title. split; [apply title_from_idemp|].
  rewrite length_app, title_from_length. done.
Qed.

Lemma title_idempotent_same_length_witness :
  title (title "inner peace") = title "inner peace" ∧
  String.length (title "inner peace") = String.length "inner peace" ∧
  String.length (caption "inner peace")
    = (21 + String.length "inner peace")%nat.
Proof.
  apply (title_idempotent_same_length "inner peace"). reflexivity.
Defined.
